(** * Expense tracker (MERN client): the transaction store, the sync layer,
      the derived views and the edit-mode routing of [src/function/src/App.jsx]

    The development is a shallow embedding of the client: the reducer
    [AppReducer] is a pure function on a record of four fields, the four
    asynchronous operations of [GlobalProvider] are functions from the outcome
    of their one network call to the action they dispatch, and the derived
    views ([Balance], [IncomeExpenses], [SpendingChart]) are folds over the
    transaction list.

    JavaScript numbers are IEEE 754 binary64 values.  The arithmetic the views
    use ([+], [*], [<], [Math.abs], the literals [0] and [-1]) is collected in
    the interface [Arith]; its instance [float_Arith] is the kernel's binary64
    arithmetic, which is what the program runs on, and [Z_Arith] is exact
    integer arithmetic (whole cents, say), used to state what holds when no
    rounding takes place. *)

From Stdlib Require Import List String Bool ZArith Lia Floats.
Import ListNotations.

Set Implicit Arguments.
Set Warnings "-inexact-float".

Local Open Scope string_scope.

(* ================================================================== *)
(** ** Numbers *)

(** The operations on [amount] that the source uses. *)
Class Arith (num : Type) : Type := {
  zero : num;                    (* the literal [0] *)
  neg_one : num;                 (* the literal [-1] *)
  add : num -> num -> num;       (* [a + b] *)
  sub : num -> num -> num;       (* [a - b] *)
  mul : num -> num -> num;       (* [a * b] *)
  lt : num -> num -> bool;       (* [a < b] *)
  Math_abs : num -> num          (* [Math.abs(a)] *)
}.

(** JavaScript's own arithmetic: binary64. *)
#[export] Instance float_Arith : Arith float := {
  zero := 0%float;
  neg_one := (-1)%float;
  add := PrimFloat.add;
  sub := PrimFloat.sub;
  mul := PrimFloat.mul;
  lt := PrimFloat.ltb;
  Math_abs := PrimFloat.abs
}.

(** Exact integer arithmetic. *)
#[export] Instance Z_Arith : Arith Z := {
  zero := 0%Z;
  neg_one := (-1)%Z;
  add := Z.add;
  sub := Z.sub;
  mul := Z.mul;
  lt := Z.ltb;
  Math_abs := Z.abs
}.

(** Arithmetic without rounding: the laws of an ordered commutative group,
    as far as the views need them.  Binary64 satisfies none of the first
    three once a sum leaves the range of exactly representable values. *)
Class ExactArith (num : Type) (A : Arith num) : Prop := {
  add_comm : forall a b : num, add a b = add b a;
  add_assoc : forall a b c : num, add a (add b c) = add (add a b) c;
  add_zero_l : forall a : num, add zero a = a;
  mul_neg_one_zero : mul zero neg_one = zero;
  mul_neg_one_add :
    forall a b : num, mul (add a b) neg_one = add (mul a neg_one) (mul b neg_one);
  sub_mul_neg_one : forall a b : num, sub a (mul b neg_one) = add a b;
  abs_of_negative : forall a : num, lt a zero = true -> Math_abs a = mul a neg_one;
  lt_asym : forall a : num, lt zero a = true -> lt a zero = false;
  lt_total : forall a : num, lt zero a = false -> lt a zero = false -> a = zero
}.

(* ================================================================== *)
(** ** What a network call returns *)

(** What a rejected axios call carries: [err.response] is missing when the
    request never reached the server, [err.response.data] is the response
    body, and its [error] field is optional. *)
Record ResponseBody : Type := mkBody { body_error : option string }.
Record Response : Type := mkResponse { data : option ResponseBody }.
Record AxiosError : Type := mkAxiosError { response : option Response }.

(** The outcome of the one network call of an operation: the promise
    resolves with [res.data.data], or it rejects with [err]. *)
Inductive Outcome (A : Type) : Type :=
| Resolved (res_data_data : A)
| Rejected (err : AxiosError).
Arguments Rejected {A} err.

(** [err.response?.data?.error] *)
Definition err_response_data_error (err : AxiosError) : option string :=
  match response err with
  | None => None
  | Some r =>
      match data r with
      | None => None
      | Some body => body_error body
      end
  end.

(* ================================================================== *)
(** ** 1. State management *)

Section Store.

Variable num : Type.

(** A transaction as the server returns it.  [category] and [createdAt] may
    be missing ([None]); [_id] is the server-assigned identifier. *)
Record Transaction : Type := mkTransaction {
  _id : string;
  text : string;
  amount : num;
  category : option string;
  createdAt : option string
}.

(** The store.  [error] is [None] when the slot holds [null] or
    [undefined]. *)
Record State : Type := mkState {
  transactions : list Transaction;
  error : option string;
  loading : bool;
  editing : option Transaction
}.

Definition initialState : State :=
  {| transactions := []; error := None; loading := true; editing := None |}.

(** The actions.  The first six constructors are the action objects whose
    [type] is the string literal of the same name, with the payload the sync
    layer gives them; [OTHER ty] is an action object whose [type] is any
    other string. *)
Inductive Action : Type :=
| GET_TRANSACTIONS (payload : list Transaction)
| DELETE_TRANSACTION (payload : string)
| ADD_TRANSACTION (payload : Transaction)
| UPDATE_TRANSACTION (payload : Transaction)
| SET_EDITING (payload : option Transaction)
| TRANSACTION_ERROR (payload : option string)
| OTHER (ty : string).

Definition action_type (action : Action) : string :=
  match action with
  | GET_TRANSACTIONS _ => "GET_TRANSACTIONS"
  | DELETE_TRANSACTION _ => "DELETE_TRANSACTION"
  | ADD_TRANSACTION _ => "ADD_TRANSACTION"
  | UPDATE_TRANSACTION _ => "UPDATE_TRANSACTION"
  | SET_EDITING _ => "SET_EDITING"
  | TRANSACTION_ERROR _ => "TRANSACTION_ERROR"
  | OTHER ty => ty
  end.

(** The six [case] labels of the reducer's [switch]. *)
Definition recognized_types : list string :=
  [ "GET_TRANSACTIONS"; "DELETE_TRANSACTION"; "ADD_TRANSACTION";
    "UPDATE_TRANSACTION"; "SET_EDITING"; "TRANSACTION_ERROR" ].

Definition AppReducer (state : State) (action : Action) : State :=
  match action with
  | GET_TRANSACTIONS payload =>
      {| transactions := payload;
         error := error state;
         loading := false;
         editing := editing state |}
  | DELETE_TRANSACTION payload =>
      {| transactions :=
           filter (fun t => negb (_id t =? payload)) (transactions state);
         error := error state;
         loading := loading state;
         editing := editing state |}
  | ADD_TRANSACTION payload =>
      {| transactions := transactions state ++ [payload];
         error := error state;
         loading := loading state;
         editing := editing state |}
  | UPDATE_TRANSACTION payload =>
      {| transactions :=
           map (fun t => if _id t =? _id payload then payload else t)
               (transactions state);
         error := error state;
         loading := loading state;
         editing := None |}
  | SET_EDITING payload =>
      {| transactions := transactions state;
         error := error state;
         loading := loading state;
         editing := payload |}
  | TRANSACTION_ERROR payload =>
      {| transactions := transactions state;
         error := payload;
         loading := loading state;
         editing := editing state |}
  | OTHER _ => state
  end.

(** The identifiers of a list, in order. *)
Definition ids (l : list Transaction) : list string := map _id l.

(** "Transaction ids are unique within [transactions]". *)
Definition unique_ids (state : State) : Prop := NoDup (ids (transactions state)).

(* ---------------------------------------------------------------- *)
(** *** The sync layer *)

(** The request body [{ text, amount, category }] of a create or an update. *)
Record Data : Type := mkData {
  data_text : string;
  data_amount : num;
  data_category : string
}.

(** Each operation, as the action it dispatches once its call has settled.
    The arguments that only go into the request (the body, the id in the
    path of a PUT) do not reach the dispatched action. *)
Definition getTransactions (o : Outcome (list Transaction)) : Action :=
  match o with
  | Resolved payload => GET_TRANSACTIONS payload
  | Rejected err => TRANSACTION_ERROR (err_response_data_error err)
  end.

Definition deleteTransaction (id : string) (o : Outcome unit) : Action :=
  match o with
  | Resolved _ => DELETE_TRANSACTION id
  | Rejected err => TRANSACTION_ERROR (err_response_data_error err)
  end.

Definition addTransaction (transaction : Data) (o : Outcome Transaction) : Action :=
  match o with
  | Resolved payload => ADD_TRANSACTION payload
  | Rejected err => TRANSACTION_ERROR (err_response_data_error err)
  end.

Definition updateTransaction (id : string) (updatedData : Data)
    (o : Outcome Transaction) : Action :=
  match o with
  | Resolved payload => UPDATE_TRANSACTION payload
  | Rejected err => TRANSACTION_ERROR (err_response_data_error err)
  end.

Definition setEditing (transaction : option Transaction) : Action :=
  SET_EDITING transaction.

(** The failure branch of the four operations. *)
Inductive failed_sync : Action -> AxiosError -> Prop :=
| failed_list : forall err,
    failed_sync (getTransactions (Rejected err)) err
| failed_remove : forall id err,
    failed_sync (deleteTransaction id (Rejected err)) err
| failed_create : forall transaction err,
    failed_sync (addTransaction transaction (Rejected err)) err
| failed_update : forall id updatedData err,
    failed_sync (updateTransaction id updatedData (Rejected err)) err.

(** What the server is trusted with: the list it returns has no repeated id,
    and the id it assigns to a created transaction is not in use. *)
Definition server_ids_fresh (state : State) (action : Action) : Prop :=
  match action with
  | GET_TRANSACTIONS payload => NoDup (ids payload)
  | ADD_TRANSACTION payload => ~ In (_id payload) (ids (transactions state))
  | _ => True
  end.

End Store.

Arguments OTHER {num} ty.
Arguments TRANSACTION_ERROR {num} payload.
Arguments DELETE_TRANSACTION {num} payload.
Arguments initialState {num}.

(* ================================================================== *)
(** ** 0. Configuration *)

(** The [id] and [label] of the entries of [CATEGORIES] (the icon and the
    colours play no part here). *)
Record Category : Type := mkCategory { id : string; label : string }.

Definition CATEGORIES : list Category :=
  [ {| id := "Food"; label := "Food & Dining" |};
    {| id := "Rent"; label := "Rent & Housing" |};
    {| id := "Utilities"; label := "Utilities" |};
    {| id := "Entertainment"; label := "Entertainment" |};
    {| id := "Health"; label := "Health & Fitness" |};
    {| id := "Salary"; label := "Salary & Income" |};
    {| id := "Other"; label := "Other Expenses" |} ].

(** [getCatDetails] of the transaction list (and the same expression in the
    dropdown): [CATEGORIES.find(c => c.id === id) || CATEGORIES[6]]. *)
Definition getCatDetails (category : option string) : Category :=
  match category with
  | None => nth 6 CATEGORIES {| id := "Other"; label := "Other Expenses" |}
  | Some c =>
      match find (fun cat => id cat =? c) CATEGORIES with
      | Some cat => cat
      | None => nth 6 CATEGORIES {| id := "Other"; label := "Other Expenses" |}
      end
  end.

(* ================================================================== *)
(** ** 2. Components: derived views *)

Section Views.

Context {num : Type} {A : Arith num}.

(** [Balance]: the number that [toFixed(2)] then formats, that is
    [transactions.reduce((acc, item) => acc + item.amount, 0)]. *)
Definition Balance_total (transactions : list (Transaction num)) : num :=
  fold_left (fun acc item => add acc (amount item)) transactions zero.

(** [IncomeExpenses]: the two numbers that [toFixed(2)] then formats. *)
Definition IncomeExpenses_income (transactions : list (Transaction num)) : num :=
  fold_left (fun acc item => add acc (amount item))
            (filter (fun item => lt zero (amount item)) transactions) zero.

Definition IncomeExpenses_expense (transactions : list (Transaction num)) : num :=
  mul (fold_left (fun acc item => add acc (amount item))
                 (filter (fun item => lt (amount item) zero) transactions) zero)
      neg_one.

(** The sum of the amounts of a list, from [0]: the reduction that the
    balance, the income and the expense share. *)
Definition sum_amounts (transactions : list (Transaction num)) : num :=
  fold_left (fun acc item => add acc (amount item)) transactions zero.

(** The sum of the absolute amounts of a list, from [0]. *)
Definition sum_abs (transactions : list (Transaction num)) : num :=
  fold_left (fun acc item => add acc (Math_abs (amount item))) transactions zero.

(** How far the balance is from income minus expense. *)
Definition balance_gap (transactions : list (Transaction num)) : num :=
  Math_abs (sub (Balance_total transactions)
                (sub (IncomeExpenses_income transactions)
                     (IncomeExpenses_expense transactions))).

(** [curr.category || 'Other']: a missing category and the empty string are
    the falsy values a category can take. *)
Definition category_or_Other (curr : Transaction num) : string :=
  match category curr with
  | None => "Other"
  | Some c => if c =? "" then "Other" else c
  end.

(** An entry of the chart's [data] array. *)
Record Slice : Type := mkSlice { name : string; value : num }.

(** [existing.value += v] where [existing] is the first entry of [acc] whose
    name is [cat]: the entry is updated in place, the others are untouched. *)
Fixpoint add_to_existing (cat : string) (v : num) (acc : list Slice) : list Slice :=
  match acc with
  | [] => []
  | item :: rest =>
      if name item =? cat
      then {| name := name item; value := add (value item) v |} :: rest
      else item :: add_to_existing cat v rest
  end.

(** The callback of the chart's [reduce]. *)
Definition SpendingChart_step (acc : list Slice) (curr : Transaction num) : list Slice :=
  let cat := category_or_Other curr in
  match find (fun item => name item =? cat) acc with
  | Some _ => add_to_existing cat (Math_abs (amount curr)) acc
  | None => acc ++ [ {| name := cat; value := Math_abs (amount curr) |} ]
  end.

Definition SpendingChart_data (transactions : list (Transaction num)) : list Slice :=
  fold_left SpendingChart_step
            (filter (fun t => lt (amount t) zero) transactions) [].

(** [data.reduce((acc, item) => acc + item.value, 0)] *)
Definition SpendingChart_totalExpense (data : list Slice) : num :=
  fold_left (fun acc item => add acc (value item)) data zero.

(** The value of the group [cat] in a breakdown, when there is one. *)
Definition group_value (cat : string) (data : list Slice) : option num :=
  option_map value (find (fun item => name item =? cat) data).

(** [x0 + x1 + ... + xn], summed from the left as [+=] does. *)
Definition sum_from_first (l : list num) : option num :=
  match l with
  | [] => None
  | x :: rest => Some (fold_left add rest x)
  end.

(** The expenses of a list that fall in the group [cat], in list order. *)
Definition expenses_of (cat : string) (transactions : list (Transaction num)) : list (Transaction num) :=
  filter (fun t => category_or_Other t =? cat)
         (filter (fun t => lt (amount t) zero) transactions).

End Views.

(* ================================================================== *)
(** ** 3. Components: the form of [AddTransaction] *)

Section Form.

Context {num : Type}.

(** The [amount] field of the form holds what the input element gave (a
    string, [''] at first) or the number copied from the transaction under
    edit. *)
Inductive AmountField : Type :=
| FromInput (s : string)
| FromRecord (n : num).

(** The form's three pieces of local state. *)
Record Draft : Type := mkDraft {
  draft_text : string;
  draft_amount : AmountField;
  draft_category : string
}.

(** [setText(''); setAmount(''); setCategory('Other')] *)
Definition empty_draft : Draft :=
  {| draft_text := ""; draft_amount := FromInput ""; draft_category := "Other" |}.

(** The calls that [onSubmit] can make. *)
Inductive SyncCall : Type :=
| call_updateTransaction (id : string) (updatedData : Data num)
| call_addTransaction (transaction : Data num).

(** The action a call dispatches once its network call has settled. *)
Definition settle (call : SyncCall) (o : Outcome (Transaction num)) : Action num :=
  match call with
  | call_updateTransaction id updatedData => updateTransaction id updatedData o
  | call_addTransaction transaction => addTransaction transaction o
  end.

(** The conversion of a string to a number by unary [+] is the host's. *)
Variable StringToNumber : string -> num.

(** [+amount] *)
Definition unary_plus (a : AmountField) : num :=
  match a with
  | FromInput s => StringToNumber s
  | FromRecord n => n
  end.

(** The effect hook on [editing]: loads the form from the edit slot. *)
Definition load_draft (editing : option (Transaction num)) : Draft :=
  match editing with
  | Some e =>
      {| draft_text := text e;
         draft_amount := FromRecord (amount e);
         draft_category :=
           match category e with
           | None => "Other"
           | Some c => if c =? "" then "Other" else c
           end |}
  | None => empty_draft
  end.

(** [onSubmit]: the call it makes, with [{ text, amount: +amount, category }]
    as its data, and the form it leaves. *)
Definition onSubmit (editing : option (Transaction num)) (draft : Draft) : SyncCall * Draft :=
  let data := {| data_text := draft_text draft;
                 data_amount := unary_plus (draft_amount draft);
                 data_category := draft_category draft |} in
  (match editing with
   | Some e => call_updateTransaction (_id e) data
   | None => call_addTransaction data
   end,
   empty_draft).

(** [cancelEdit]: the action it dispatches and the form it leaves. *)
Definition cancelEdit : Action num * Draft :=
  (setEditing None, empty_draft).

End Form.

(* ================================================================== *)
(** ** 4. The provider, runs of the store, and the remaining components *)

Section Provider.

Variable num : Type.

(** The data that [GlobalContext.Provider] hands to the components: its
    [value] has [transactions] and [editing] (and the five functions), and
    neither [error] nor [loading]. *)
Record ContextValue : Type := mkContextValue {
  value_transactions : list (Transaction num);
  value_editing : option (Transaction num)
}.

Definition GlobalProvider_value (state : State num) : ContextValue :=
  {| value_transactions := transactions state; value_editing := editing state |}.

(** The store after a sequence of dispatched actions, oldest first. *)
Definition dispatch_all (state : State num) (actions : list (Action num)) : State num :=
  fold_left (@AppReducer num) actions state.

(** Whether an action is the one a successful first fetch dispatches. *)
Definition is_GET_TRANSACTIONS (action : Action num) : bool :=
  match action with
  | GET_TRANSACTIONS _ => true
  | _ => false
  end.

End Provider.

(** [s.includes(sub)]: whether [sub] occurs in [s] as a run of consecutive
    characters. *)
Fixpoint includes (s sub : string) : bool :=
  if prefix sub s then true
  else match s with
       | EmptyString => false
       | String _ rest => includes rest sub
       end.

(** The rows of the menu of [CategoryDropdown] that are drawn as selected:
    those with [value === cat.id]. *)
Definition selected_rows (value : string) : list Category :=
  filter (fun cat => value =? id cat) CATEGORIES.

(** The entry that the trigger button of [CategoryDropdown] shows:
    [CATEGORIES.find(c => c.id === value) || CATEGORIES[6]]. *)
Definition selectedCategory (value : string) : Category :=
  getCatDetails (Some value).

(** The palette of the chart. *)
Definition COLORS : list string :=
  [ "#FF8042"; "#00C49F"; "#FFBB28"; "#0088FE"; "#8884d8"; "#ffc658" ].

(** The [fill] of the cell of the entry at [index]:
    [COLORS[index % COLORS.length]]. *)
Definition Cell_fill (index : nat) : string :=
  nth (index mod List.length COLORS) COLORS "".

Section TransactionList.

Context {num : Type} {A : Arith num}.

(** Lower-casing is the host's ([String.prototype.toLowerCase]). *)
Variable toLowerCase : string -> string.

(** The callback of [transactions.filter] in [TransactionList]; [filter] is
    the tab ('all', 'income' or 'expense') and [search] the search box. *)
Definition matches (filter search : string) (t : Transaction num) : bool :=
  let matchesSearch := includes (toLowerCase (text t)) (toLowerCase search) in
  let matchesFilter :=
    if filter =? "all" then true
    else if filter =? "income" then lt zero (amount t)
    else lt (amount t) zero in
  matchesSearch && matchesFilter.

Definition filteredTransactions (filter search : string)
    (transactions : list (Transaction num)) : list (Transaction num) :=
  List.filter (matches filter search) transactions.

(** The sign shown in front of the amount of a row:
    [isExpense ? '-' : '+'] with [isExpense = transaction.amount < 0]. *)
Definition row_sign (transaction : Transaction num) : string :=
  if lt (amount transaction) zero then "-" else "+".

End TransactionList.

(* ================================================================== *)
(** ** Sample data *)

(** A transaction with the given id, amount and category. *)
Definition sample (id : string) (amt : float) (cat : option string)
    : Transaction float :=
  {| _id := id; text := "groceries"; amount := amt; category := cat;
     createdAt := None |}.

Definition lunch : Transaction float := sample "a1" (-20)%float (Some "Food").
Definition dinner : Transaction float := sample "a2" (-10)%float (Some "Food").
Definition salary : Transaction float := sample "a3" 50%float (Some "Salary").

(** The store after the first fetch returned the three sample records. *)
Definition loaded : State float :=
  {| transactions := [lunch; dinner; salary];
     error := None; loading := false; editing := None |}.

(** A rejection whose request never reached the server. *)
Definition network_failure : AxiosError := {| response := None |}.

(** A rejection whose response body carries a structured error. *)
Definition server_failure (message : string) : AxiosError :=
  {| response := Some {| data := Some {| body_error := Some message |} |} |}.

(** A record the server never returned. *)
Definition ghost : Transaction float := sample "zz" (-5)%float (Some "Rent").

(** The store with a recorded error and [lunch] under edit. *)
Definition troubled : State float :=
  {| transactions := [lunch; dinner; salary];
     error := Some "Server Error"; loading := false; editing := Some lunch |}.

(** The request body of the form filled with a coffee. *)
Definition coffee : Data float :=
  {| data_text := "coffee"; data_amount := (-3)%float; data_category := "Food" |}.

(** An expense in a category that [CATEGORIES] does not list. *)
Definition trip : Transaction float := sample "b1" (-5)%float (Some "Travel").

(** An expense that carries no category. *)
Definition cash : Transaction float := sample "b2" (-7)%float None.

(** Amounts beyond 2^53, where binary64 no longer holds every integer. *)
Definition big_ledger : list (Transaction float) :=
  [ sample "c1" 1e16%float (Some "Salary");
    sample "c2" (-1e16)%float (Some "Rent");
    sample "c3" 1%float (Some "Salary") ].

Definition big_expenses : list (Transaction float) :=
  [ sample "d1" (-1e16)%float (Some "Rent");
    sample "d2" (-1)%float (Some "Food");
    sample "d3" (-1)%float (Some "Food") ].

(** Ten, twenty and thirty cents. *)
Definition small_expenses : list (Transaction float) :=
  [ sample "e1" (-0.1)%float (Some "Food");
    sample "e2" (-0.2)%float (Some "Rent");
    sample "e3" (-0.3)%float (Some "Rent") ].

(** The three sample records with their amounts in whole cents. *)
Definition cents (id : string) (amt : Z) (cat : option string) : Transaction Z :=
  {| _id := id; text := "groceries"; amount := amt; category := cat;
     createdAt := None |}.

Definition ledger_in_cents : list (Transaction Z) :=
  [ cents "a1" (-2000)%Z (Some "Food");
    cents "a2" (-1000)%Z (Some "Food");
    cents "a3" 5000%Z (Some "Salary") ].

(** A stand-in for the host's conversion: [+''] is [0]; the examples convert
    no other string, and this stand-in reads them as [NaN]. *)
Definition blank_to_zero (s : string) : float :=
  if s =? "" then 0%float else nan.

(** A stand-in for the host's lower-casing, on ASCII text: the letters [A]
    to [Z] go to [a] to [z], every other character stays. *)
Definition lower_ascii (c : Ascii.ascii) : Ascii.ascii :=
  let n := Ascii.nat_of_ascii c in
  if (65 <=? n)%nat && (n <=? 90)%nat then Ascii.ascii_of_nat (n + 32) else c.

Fixpoint ascii_toLowerCase (s : string) : string :=
  match s with
  | EmptyString => EmptyString
  | String c rest => String (lower_ascii c) (ascii_toLowerCase rest)
  end.

(** A record with amount zero, and one without category and with an amount. *)
Definition nothing : Transaction float := sample "f1" 0%float (Some "Other").

(** The run of a session: a failed fetch, an edit started, a create. *)
Definition session : list (Action float) :=
  [ getTransactions (Rejected (server_failure "Server Error"));
    setEditing (Some lunch);
    addTransaction coffee (Resolved ghost) ].

(* ================================================================== *)
(** * Properties of the store *)

Section StoreProperties.

Variable num : Type.

Implicit Types (state : State num) (action : Action num) (tx : Transaction num).

(** Mapping the replacement over a list keeps the identifiers as they are. *)
Lemma ids_replace : forall tx (l : list (Transaction num)),
  ids (map (fun t => if _id t =? _id tx then tx else t) l) = ids l.
Proof.
  intros tx l. unfold ids. induction l as [|t l IH]; cbn; [reflexivity|].
  rewrite IH. destruct (String.eqb_spec (_id t) (_id tx)) as [e|_]; cbn; congruence.
Qed.

(** Mapping the replacement over a list without the identifier changes
    nothing. *)
Lemma replace_absent : forall tx (l : list (Transaction num)),
  ~ In (_id tx) (ids l) ->
  map (fun t => if _id t =? _id tx then tx else t) l = l.
Proof.
  intros tx l. induction l as [|t l IH]; cbn; intros Hnot; [reflexivity|].
  destruct (String.eqb_spec (_id t) (_id tx)) as [e|_].
  - exfalso. apply Hnot. left. exact e.
  - f_equal. apply IH. intros Hin. apply Hnot. right. exact Hin.
Qed.

(** Filtering a list keeps its identifiers pairwise distinct. *)
Lemma NoDup_ids_filter : forall (f : Transaction num -> bool) (l : list (Transaction num)),
  NoDup (ids l) -> NoDup (ids (filter f l)).
Proof.
  intros f l. unfold ids. induction l as [|t l IH]; cbn; intros Hnd; [constructor|].
  inversion Hnd as [|x xs Hnotin Hrest]; subst.
  destruct (f t); cbn; [|apply IH; exact Hrest].
  constructor; [|apply IH; exact Hrest].
  intros Hin. apply Hnotin.
  apply in_map_iff in Hin. destruct Hin as [u [Hu Hin]].
  apply filter_In in Hin. apply in_map_iff. exists u. tauto.
Qed.

(** No identifier of a filtered list was filtered out. *)
Lemma removed_id_absent : forall (id : string) (l : list (Transaction num)),
  ~ In id (ids (filter (fun t => negb (_id t =? id)) l)).
Proof.
  intros id l Hin. unfold ids in Hin.
  apply in_map_iff in Hin. destruct Hin as [u [Hu Hin]].
  apply filter_In in Hin. destruct Hin as [_ Hneq].
  rewrite <- Hu, String.eqb_refl in Hneq. discriminate.
Qed.

(** C4. For every state, [Replace(tx)] (the action [UPDATE_TRANSACTION])
    leaves the transaction list unchanged when no entry has the id of [tx],
    and in every case, id present or not, sets [editing] to null. *)
Theorem Replace_absent_id_keeps_list_and_clears_editing : forall state tx,
  (~ In (_id tx) (ids (transactions state)) ->
   transactions (AppReducer state (UPDATE_TRANSACTION tx)) = transactions state)
  /\ editing (AppReducer state (UPDATE_TRANSACTION tx)) = None.
Proof.
  intros state tx. split; [|reflexivity].
  intros Habsent. cbn. apply replace_absent. exact Habsent.
Qed.

(** C5, under what the server is trusted with. From a state whose transactions have pairwise-distinct ids,
    [Remove], [Replace], [SetEditing], [SetError] and an unrecognized action
    always lead to such a state; [Add(tx)] does when the id of [tx] is not
    already in the list, and [SetAll(list)] does when the ids of [list] are
    pairwise distinct. *)
Theorem unique_ids_preserved_with_fresh_server_ids : forall state action,
  unique_ids state ->
  server_ids_fresh state action ->
  unique_ids (AppReducer state action).
Proof.
  unfold unique_ids. intros state action Huniq Hfresh.
  destruct action as [l|id|tx|tx|e|m|ty];
    cbn [AppReducer transactions server_ids_fresh] in *; try assumption.
  - apply NoDup_ids_filter. exact Huniq.
  - unfold ids in *. rewrite map_app. cbn.
    apply NoDup_app; [exact Huniq | repeat constructor; intros [] | ].
    intros x Hx [Hy|[]]. subst x. contradiction.
  - rewrite ids_replace. exact Huniq.
Qed.

(** C7. A failed sync operation (list, remove, create or update) dispatches
    [SetError] with the message taken from the rejection, and the state it
    produces differs from the previous one in the [error] field only: the
    transaction list, the editing slot and the loading flag are as they
    were. *)
Theorem failed_sync_changes_only_error : forall state action err,
  failed_sync action err ->
  action = TRANSACTION_ERROR (err_response_data_error err)
  /\ AppReducer state action =
     {| transactions := transactions state;
        error := err_response_data_error err;
        loading := loading state;
        editing := editing state |}.
Proof.
  intros state action err Hfail. destruct Hfail; split; reflexivity.
Qed.


(** C9. For every state with a recorded error message, every transition
    other than [SetError] ([SetAll], [Add], [Remove], [Replace], [SetEditing],
    and an unrecognized action too) leaves the [error] field equal to its
    previous value: a successful operation never clears a recorded error. *)
Theorem error_kept_by_every_transition_but_SetError : forall state action message,
  error state = Some message ->
  action_type action <> "TRANSACTION_ERROR" ->
  error (AppReducer state action) = Some message.
Proof.
  intros state action message Herr Hty.
  destruct action; cbn in *; try exact Herr. congruence.
Qed.

(** C10. [Remove(id)] leaves the editing slot unchanged; when the removed id
    is the id of the transaction held in the editing slot, the slot still
    holds that transaction afterwards although no entry of the list has its
    id any more. *)
Theorem Remove_keeps_editing_even_of_removed : forall state id,
  editing (AppReducer state (DELETE_TRANSACTION id)) = editing state
  /\ (forall e, editing state = Some e -> _id e = id ->
        editing (AppReducer state (DELETE_TRANSACTION id)) = Some e
        /\ ~ In (_id e) (ids (transactions (AppReducer state (DELETE_TRANSACTION id))))).
Proof.
  intros state id. split; [reflexivity|].
  intros e He Hid. split; [exact He|].
  subst id. cbn. apply removed_id_absent.
Qed.

End StoreProperties.

(** Closes a goal [NoDup l] or [~ In x l] on a list of string literals. *)
Ltac distinct_literals :=
  repeat constructor; cbn; intuition discriminate.

(** C4, on the loaded store: replacing a record the list does not hold. *)
Lemma Replace_absent_id_witness :
  transactions (AppReducer loaded (UPDATE_TRANSACTION ghost)) = transactions loaded
  /\ editing (AppReducer troubled (UPDATE_TRANSACTION lunch)) = None.
Proof.
  split.
  - apply (Replace_absent_id_keeps_list_and_clears_editing loaded ghost).
    cbn. intuition discriminate.
  - apply (Replace_absent_id_keeps_list_and_clears_editing troubled lunch).
Defined.

(** C5 does not hold for every [Add]: [Add] of a record whose id the list already holds
    leaves two entries with one id. *)
Lemma unique_ids_broken_by_Add :
  unique_ids loaded /\ ~ unique_ids (AppReducer loaded (ADD_TRANSACTION lunch)).
Proof.
  split; [unfold unique_ids; distinct_literals|].
  unfold unique_ids. cbn. intros Hnd.
  inversion Hnd as [|x xs Hnotin _]; subst. apply Hnotin. cbn. tauto.
Qed.

(** C5, on the loaded store: a created record with a new id. *)
Lemma unique_ids_preserved_witness :
  unique_ids (AppReducer loaded (ADD_TRANSACTION ghost)).
Proof.
  apply (@unique_ids_preserved_with_fresh_server_ids float loaded (ADD_TRANSACTION ghost)).
  - unfold unique_ids. distinct_literals.
  - cbn. intuition discriminate.
Defined.

(** C7, on a create that never reached the server. *)
Lemma failed_sync_changes_only_error_witness :
  AppReducer troubled (addTransaction coffee (Rejected network_failure)) =
  {| transactions := [lunch; dinner; salary];
     error := None; loading := false; editing := Some lunch |}.
Proof.
  apply (@failed_sync_changes_only_error float troubled
           (addTransaction coffee (Rejected network_failure)) network_failure).
  apply failed_create.
Defined.



(** C9, on a store with a recorded error: a successful create keeps it. *)
Lemma error_kept_witness :
  error (AppReducer troubled (addTransaction coffee (Resolved ghost))) = Some "Server Error".
Proof.
  apply (@error_kept_by_every_transition_but_SetError float troubled
           (addTransaction coffee (Resolved ghost)) "Server Error").
  - reflexivity.
  - cbn. discriminate.
Defined.

(** C10, on the store with [lunch] under edit: removing [lunch]. *)
Lemma Remove_keeps_editing_witness :
  editing (AppReducer troubled (DELETE_TRANSACTION "a1")) = Some lunch
  /\ ~ In "a1" (ids (transactions (AppReducer troubled (DELETE_TRANSACTION "a1")))).
Proof.
  destruct (@Remove_keeps_editing_even_of_removed float troubled "a1") as [_ Hgone].
  apply (Hgone lunch); reflexivity.
Defined.

(* ================================================================== *)
(** * Properties of the derived views *)

(** Integer arithmetic is exact. *)
#[export] Instance Z_ExactArith : ExactArith Z_Arith.
Proof. constructor; cbn; intros; lia. Qed.

Section ExactViews.

Context {num : Type} {A : Arith num} {E : ExactArith A}.

Implicit Types (l : list (Transaction num)).

(** A left fold of additions from [a] is [a] plus the fold from [0]. *)
Lemma fold_add_from : forall (X : Type) (f : X -> num) (xs : list X) (a : num),
  fold_left (fun acc x => add acc (f x)) xs a =
  add a (fold_left (fun acc x => add acc (f x)) xs zero).
Proof.
  intros X f xs. induction xs as [|x xs IH]; intros a; cbn.
  - rewrite add_comm. symmetry. apply add_zero_l.
  - rewrite (IH (add a (f x))), (IH (add zero (f x))).
    rewrite add_zero_l. symmetry. apply add_assoc.
Qed.

Lemma sum_amounts_cons : forall t l,
  sum_amounts (t :: l) = add (amount t) (sum_amounts l).
Proof.
  intros t l. unfold sum_amounts. cbn. rewrite fold_add_from, add_zero_l. reflexivity.
Qed.

Lemma sum_abs_cons : forall t l,
  sum_abs (t :: l) = add (Math_abs (amount t)) (sum_abs l).
Proof.
  intros t l. unfold sum_abs. cbn. rewrite fold_add_from, add_zero_l. reflexivity.
Qed.

(** The amounts of a list add up to the positive ones plus the negative
    ones. *)
Lemma sum_amounts_split : forall l,
  sum_amounts l =
  add (sum_amounts (filter (fun item => lt zero (amount item)) l))
      (sum_amounts (filter (fun item => lt (amount item) zero) l)).
Proof.
  induction l as [|t l IH].
  - cbn. symmetry. apply add_zero_l.
  - rewrite sum_amounts_cons, IH. cbn [filter].
    destruct (lt zero (amount t)) eqn:Hpos.
    + rewrite (lt_asym _ Hpos), sum_amounts_cons. apply add_assoc.
    + destruct (lt (amount t) zero) eqn:Hneg.
      * rewrite sum_amounts_cons.
        rewrite add_assoc, (add_comm (amount t)), <- add_assoc. reflexivity.
      * rewrite (lt_total _ Hpos Hneg). apply add_zero_l.
Qed.

(** On negative amounts, the absolute values add up to the sum times [-1]. *)
Lemma sum_abs_of_negatives : forall l,
  Forall (fun t => lt (amount t) zero = true) l ->
  sum_abs l = mul (sum_amounts l) neg_one.
Proof.
  induction 1 as [|t l Hneg _ IH].
  - cbn. symmetry. apply mul_neg_one_zero.
  - rewrite sum_abs_cons, sum_amounts_cons, mul_neg_one_add, IH.
    rewrite (abs_of_negative _ Hneg). reflexivity.
Qed.

(** The total of a breakdown, entry by entry. *)
Lemma totalExpense_cons : forall (s : Slice) acc,
  SpendingChart_totalExpense (s :: acc) = add (value s) (SpendingChart_totalExpense acc).
Proof.
  intros s acc. unfold SpendingChart_totalExpense. cbn.
  rewrite fold_add_from, add_zero_l. reflexivity.
Qed.

Lemma totalExpense_push : forall acc (s : Slice),
  SpendingChart_totalExpense (acc ++ [s]) = add (SpendingChart_totalExpense acc) (value s).
Proof.
  intros acc s. unfold SpendingChart_totalExpense. rewrite fold_left_app. reflexivity.
Qed.

(** Adding to an existing entry adds as much to the total. *)
Lemma totalExpense_add_to_existing : forall cat v acc,
  find (fun item => name item =? cat) acc <> None ->
  SpendingChart_totalExpense (add_to_existing cat v acc) =
  add (SpendingChart_totalExpense acc) v.
Proof.
  intros cat v acc. induction acc as [|s acc IH]; cbn [find add_to_existing]; intros Hfound.
  - congruence.
  - destruct (name s =? cat).
    + rewrite !totalExpense_cons. cbn [value].
      rewrite <- !add_assoc, (add_comm v). reflexivity.
    + rewrite !totalExpense_cons, (IH Hfound). apply add_assoc.
Qed.

(** One step of the chart's reduction adds the absolute amount to the
    total, whichever branch it takes. *)
Lemma totalExpense_step : forall acc curr,
  SpendingChart_totalExpense (SpendingChart_step acc curr) =
  add (SpendingChart_totalExpense acc) (Math_abs (amount curr)).
Proof.
  intros acc curr. unfold SpendingChart_step.
  destruct (find _ acc) eqn:Hfind.
  - apply totalExpense_add_to_existing. rewrite Hfind. discriminate.
  - apply totalExpense_push.
Qed.

Lemma totalExpense_fold : forall l acc,
  SpendingChart_totalExpense (fold_left SpendingChart_step l acc) =
  add (SpendingChart_totalExpense acc) (sum_abs l).
Proof.
  induction l as [|t l IH]; intros acc; cbn [fold_left].
  - cbn. rewrite add_comm. symmetry. apply add_zero_l.
  - rewrite IH, totalExpense_step, sum_abs_cons. symmetry. apply add_assoc.
Qed.



End ExactViews.

Section Breakdown.

Context {num : Type} {A : Arith num}.

Implicit Types (l : list (Transaction num)) (curr : Transaction num) (cat : string).

(** Looking a name up after a push. *)
Lemma group_value_push : forall cat (acc : list (@Slice num)) (s : @Slice num),
  group_value cat (acc ++ [s]) =
  match group_value cat acc with
  | Some v => Some v
  | None => if name s =? cat then Some (value s) else None
  end.
Proof.
  intros cat acc s. unfold group_value.
  induction acc as [|x acc IH]; cbn.
  - destruct (name s =? cat); reflexivity.
  - destruct (name x =? cat); [reflexivity | exact IH].
Qed.

(** Looking up the name whose entry was added to. *)
Lemma group_value_add_to_existing_same : forall cat v (acc : list (@Slice num)),
  group_value cat (add_to_existing cat v acc) =
  option_map (fun x => add x v) (group_value cat acc).
Proof.
  intros cat v acc. unfold group_value.
  induction acc as [|x acc IH]; cbn; [reflexivity|].
  destruct (name x =? cat) eqn:Hx; cbn; rewrite Hx; [reflexivity | exact IH].
Qed.

(** Looking up any other name. *)
Lemma group_value_add_to_existing_other : forall cat cat' v (acc : list (@Slice num)),
  cat' <> cat ->
  group_value cat' (add_to_existing cat v acc) = group_value cat' acc.
Proof.
  intros cat cat' v acc Hneq. unfold group_value.
  induction acc as [|x acc IH]; cbn; [reflexivity|].
  destruct (String.eqb_spec (name x) cat) as [Hx|Hx]; cbn.
  - subst cat. destruct (String.eqb_spec (name x) cat'); [congruence | reflexivity].
  - destruct (name x =? cat'); [reflexivity | exact IH].
Qed.

(** A step on a transaction of the group [cat] starts the group with the
    absolute amount, or adds the absolute amount to it. *)
Lemma group_value_step_same : forall cat (acc : list (@Slice num)) curr,
  category_or_Other curr = cat ->
  group_value cat (SpendingChart_step acc curr) =
  Some match group_value cat acc with
       | Some v => add v (Math_abs (amount curr))
       | None => Math_abs (amount curr)
       end.
Proof.
  intros cat acc curr Hcat. unfold SpendingChart_step. rewrite Hcat.
  destruct (find (fun item => name item =? cat) acc) as [s|] eqn:Hfind.
  - rewrite group_value_add_to_existing_same.
    unfold group_value. rewrite Hfind. reflexivity.
  - rewrite group_value_push. unfold group_value. rewrite Hfind. cbn.
    rewrite String.eqb_refl. reflexivity.
Qed.

(** A step on a transaction of another group leaves the group alone. *)
Lemma group_value_step_other : forall cat (acc : list (@Slice num)) curr,
  category_or_Other curr <> cat ->
  group_value cat (SpendingChart_step acc curr) = group_value cat acc.
Proof.
  intros cat acc curr Hcat. unfold SpendingChart_step.
  destruct (find _ acc) as [s|] eqn:Hfind.
  - apply group_value_add_to_existing_other. congruence.
  - rewrite group_value_push. cbn.
    destruct (group_value cat acc); [reflexivity|].
    destruct (String.eqb_spec (category_or_Other curr) cat); [contradiction | reflexivity].
Qed.

(** The value of a group after the whole reduction, from any accumulator. *)
Lemma group_value_fold : forall cat l (acc : list (@Slice num)),
  group_value cat (fold_left SpendingChart_step l acc) =
  let vs := map (fun t => Math_abs (amount t))
                (filter (fun t => category_or_Other t =? cat) l) in
  match group_value cat acc with
  | Some v => Some (fold_left add vs v)
  | None => sum_from_first vs
  end.
Proof.
  intros cat l. induction l as [|t l IH]; intros acc; cbn [fold_left filter map].
  - cbn. destruct (group_value cat acc); reflexivity.
  - rewrite IH. cbv zeta.
    destruct (String.eqb_spec (category_or_Other t) cat) as [Hsame|Hother].
    + rewrite (group_value_step_same acc t Hsame). cbn [map sum_from_first fold_left].
      destruct (group_value cat acc); reflexivity.
    + rewrite (group_value_step_other acc t Hother). reflexivity.
Qed.

(** The names of a breakdown after a step. *)
Lemma names_add_to_existing : forall cat v (acc : list (@Slice num)),
  map name (add_to_existing cat v acc) = map name acc.
Proof.
  intros cat v acc. induction acc as [|x acc IH]; cbn; [reflexivity|].
  destruct (name x =? cat); cbn; congruence.
Qed.

Lemma find_none_not_in : forall cat (acc : list (@Slice num)),
  find (fun item => name item =? cat) acc = None -> ~ In cat (map name acc).
Proof.
  intros cat acc. induction acc as [|x acc IH]; cbn; intros Hfind; [tauto|].
  destruct (String.eqb_spec (name x) cat) as [|Hx]; [discriminate|].
  intros [Hin|Hin]; [contradiction | exact (IH Hfind Hin)].
Qed.

Lemma NoDup_names_step : forall (acc : list (@Slice num)) curr,
  NoDup (map name acc) -> NoDup (map name (SpendingChart_step acc curr)).
Proof.
  intros acc curr Hnd. unfold SpendingChart_step.
  destruct (find _ acc) eqn:Hfind.
  - rewrite names_add_to_existing. exact Hnd.
  - rewrite map_app. cbn. apply NoDup_app; [exact Hnd | repeat constructor; intros [] |].
    intros x Hx [Hy|[]]. subst x. exact (find_none_not_in _ _ Hfind Hx).
Qed.

Lemma NoDup_names_fold : forall l (acc : list (@Slice num)),
  NoDup (map name acc) -> NoDup (map name (fold_left SpendingChart_step l acc)).
Proof.
  induction l as [|t l IH]; intros acc Hnd; cbn; [exact Hnd|].
  apply IH, NoDup_names_step, Hnd.
Qed.

(** C2, as the chart groups. The category breakdown of every transaction list restricts
    the list to the entries with [amount < 0] and groups them by
    [category || 'Other']: a transaction without a category (or with the
    empty string) falls in the group "Other", and every other category
    string, one of the seven of [CATEGORIES] or not, names its own group.
    Each group appears once, and its value is the sum, in list order, of the
    absolute amounts of its expenses. *)
Theorem breakdown_groups_by_category_or_Other : forall l cat,
  group_value cat (SpendingChart_data l) =
    sum_from_first (map (fun t => Math_abs (amount t)) (expenses_of cat l))
  /\ NoDup (map name (SpendingChart_data l))
  /\ (forall curr, category curr = None \/ category curr = Some "" ->
        category_or_Other curr = "Other")
  /\ (forall curr c, category curr = Some c -> c <> "" ->
        category_or_Other curr = c).
Proof.
  intros l cat. unfold SpendingChart_data, expenses_of. repeat split.
  - rewrite group_value_fold. reflexivity.
  - apply NoDup_names_fold. constructor.
  - intros curr [Hc|Hc]; unfold category_or_Other; rewrite Hc; reflexivity.
  - intros curr c Hc Hne. unfold category_or_Other. rewrite Hc.
    destruct (String.eqb_spec c ""); [contradiction | reflexivity].
Qed.

End Breakdown.

(* ================================================================== *)
(** * Properties of the form *)

Section FormProperties.

Variable num : Type.
Variable StringToNumber : string -> num.


End FormProperties.


(* ================================================================== *)
(** * The views on binary64 and on whole cents *)

(** The scenario of the three sample records. *)
Example sample_views :
  Balance_total [lunch; dinner; salary] = 20%float
  /\ IncomeExpenses_income [lunch; dinner; salary] = 50%float
  /\ IncomeExpenses_expense [lunch; dinner; salary] = 30%float
  /\ SpendingChart_data [lunch; dinner; salary] = [ {| name := "Food"; value := 30%float |} ].
Proof. repeat split. Qed.

(** The empty list: the expense is [0 * -1], negative zero. *)
Example empty_views :
  Balance_total (@nil (Transaction float)) = 0%float
  /\ IncomeExpenses_income (@nil (Transaction float)) = 0%float
  /\ IncomeExpenses_expense (@nil (Transaction float)) = (-0)%float
  /\ SpendingChart_data (@nil (Transaction float)) = [].
Proof. repeat split. Qed.



(** C2 does not hold for an unlisted category: an expense whose category is not one of the seven
    of [CATEGORIES] forms a group under its own name, and no group "Other"
    exists. *)
Lemma unknown_category_is_its_own_group :
  ~ In "Travel" (map id CATEGORIES)
  /\ SpendingChart_data [trip] = [ {| name := "Travel"; value := 5%float |} ]
  /\ group_value "Other" (SpendingChart_data [trip]) = None.
Proof.
  split; [cbn; intuition discriminate | split; reflexivity].
Qed.

(** The transaction list, for comparison, shows the same record with the
    details of "Other". *)
Example unknown_category_listed_as_Other :
  id (getCatDetails (category trip)) = "Other".
Proof. reflexivity. Qed.

(** C2: an expense without category is grouped under "Other". *)
Example missing_category_grouped_as_Other :
  SpendingChart_data [cash; trip; lunch; salary; dinner] =
  [ {| name := "Other"; value := 7%float |};
    {| name := "Travel"; value := 5%float |};
    {| name := "Food"; value := 30%float |} ].
Proof. reflexivity. Qed.


(** The same on ten, twenty and thirty cents, in the last binary digit. *)
Example breakdown_total_differs_on_cents :
  PrimFloat.eqb (SpendingChart_totalExpense (SpendingChart_data small_expenses))
                (IncomeExpenses_expense small_expenses) = false.
Proof. reflexivity. Qed.


(* ================================================================== *)
(** * Further properties of the store *)

Section StoreAlgebra.

Variable num : Type.

Implicit Types (state : State num) (action : Action num) (tx : Transaction num).

(** Filtering out an identifier that no entry has keeps the list. *)
Lemma filter_absent_id : forall (id : string) (l : list (Transaction num)),
  ~ In id (ids l) -> filter (fun t => negb (_id t =? id)) l = l.
Proof.
  intros id l. induction l as [|t l IH]; cbn; intros Habsent; [reflexivity|].
  destruct (String.eqb_spec (_id t) id) as [Hid|_]; cbn.
  - exfalso. apply Habsent. left. exact Hid.
  - f_equal. apply IH. intros Hin. apply Habsent. right. exact Hin.
Qed.

(** Two filters can be applied in either order. *)
Lemma filter_swap : forall (X : Type) (p q : X -> bool) (l : list X),
  filter p (filter q l) = filter q (filter p l).
Proof.
  intros X p q l. induction l as [|x l IH]; cbn; [reflexivity|].
  destruct (p x) eqn:Hp, (q x) eqn:Hq; cbn; rewrite ?Hp, ?Hq, IH; reflexivity.
Qed.

(** A state is its four fields. *)
Lemma State_eta : forall state,
  {| transactions := transactions state; error := error state;
     loading := loading state; editing := editing state |} = state.
Proof. intros []. reflexivity. Qed.

(** X1. [Remove(id)] for an id that no transaction of the list has returns the
    state it was given. *)
Theorem Remove_absent_id_is_noop : forall state id,
  ~ In id (ids (transactions state)) ->
  AppReducer state (DELETE_TRANSACTION id) = state.
Proof.
  intros state id Habsent. cbn. rewrite (filter_absent_id _ _ Habsent).
  apply State_eta.
Qed.

(** X2. After [Remove(id)] the list holds exactly the transactions it held
    before whose id is not [id]: every entry with that id is gone (also when
    several have it) and no other entry is. *)
Theorem Remove_removes_exactly_the_id : forall state id tx,
  In tx (transactions (AppReducer state (DELETE_TRANSACTION id)))
  <-> In tx (transactions state) /\ _id tx <> id.
Proof.
  intros state id tx. cbn. rewrite filter_In.
  destruct (String.eqb_spec (_id tx) id); cbn; intuition congruence.
Qed.

(** X3. [Add(tx)] followed by [Remove] of the id of [tx] gives back the state
    before the [Add], when that id was not in the list. *)
Theorem Add_then_Remove_restores : forall state tx,
  ~ In (_id tx) (ids (transactions state)) ->
  AppReducer (AppReducer state (ADD_TRANSACTION tx)) (DELETE_TRANSACTION (_id tx)) = state.
Proof.
  intros state tx Hfresh. cbn. rewrite filter_app, (filter_absent_id _ _ Hfresh).
  cbn. rewrite String.eqb_refl. cbn. rewrite app_nil_r. apply State_eta.
Qed.

(** Looking an identifier up in a list. *)
Lemma find_replaced_same : forall tx (l : list (Transaction num)),
  In (_id tx) (ids l) ->
  find (fun t => _id t =? _id tx)
       (map (fun t => if _id t =? _id tx then tx else t) l) = Some tx.
Proof.
  intros tx l. induction l as [|t l IH]; cbn; intros Hin; [contradiction|].
  destruct (String.eqb_spec (_id t) (_id tx)) as [Hid|Hid].
  - rewrite String.eqb_refl. reflexivity.
  - destruct (String.eqb_spec (_id t) (_id tx)); [contradiction|].
    apply IH. destruct Hin as [Hin|Hin]; [contradiction | exact Hin].
Qed.

Lemma find_replaced_other : forall tx (id : string) (l : list (Transaction num)),
  id <> _id tx ->
  find (fun t => _id t =? id)
       (map (fun t => if _id t =? _id tx then tx else t) l)
  = find (fun t => _id t =? id) l.
Proof.
  intros tx id l Hneq. induction l as [|t l IH]; cbn; [reflexivity|].
  destruct (String.eqb_spec (_id t) (_id tx)) as [Hid|Hid].
  - rewrite Hid. destruct (String.eqb_spec (_id tx) id); [congruence | exact IH].
  - destruct (_id t =? id); [reflexivity | exact IH].
Qed.

(** X4. After [Replace(tx)] on a list that holds the id of [tx], looking that
    id up gives [tx]; looking any other id up gives what it gave before; and
    the list has the same ids in the same order. *)
Theorem Replace_then_lookup : forall state tx,
  In (_id tx) (ids (transactions state)) ->
  let state' := AppReducer state (UPDATE_TRANSACTION tx) in
  find (fun t => _id t =? _id tx) (transactions state') = Some tx
  /\ (forall id, id <> _id tx ->
        find (fun t => _id t =? id) (transactions state')
        = find (fun t => _id t =? id) (transactions state))
  /\ ids (transactions state') = ids (transactions state).
Proof.
  intros state tx Hin. cbn. repeat split.
  - apply find_replaced_same. exact Hin.
  - intros id Hneq. apply find_replaced_other. exact Hneq.
  - apply ids_replace.
Qed.

(** X5. A [Replace(tx)] that arrives after the [Remove] of the id of [tx] does
    not bring the transaction back: the list stays as the [Remove] left it,
    and the editing slot is cleared. *)
Theorem Replace_after_Remove_does_not_resurrect : forall state tx,
  let removed := AppReducer state (DELETE_TRANSACTION (_id tx)) in
  transactions (AppReducer removed (UPDATE_TRANSACTION tx)) = transactions removed
  /\ ~ In tx (transactions (AppReducer removed (UPDATE_TRANSACTION tx)))
  /\ editing (AppReducer removed (UPDATE_TRANSACTION tx)) = None.
Proof.
  intros state tx. cbn.
  assert (Hsame : map (fun t => if _id t =? _id tx then tx else t)
                      (filter (fun t => negb (_id t =? _id tx)) (transactions state))
                  = filter (fun t => negb (_id t =? _id tx)) (transactions state))
    by (apply replace_absent, removed_id_absent).
  rewrite Hsame. repeat split.
  intros Hin. apply filter_In in Hin. destruct Hin as [_ Hneq].
  rewrite String.eqb_refl in Hneq. discriminate.
Qed.

(** X6. Two [Remove]s give the same state in either order, and a [Remove]
    applied twice gives what it gives once: the order in which the responses
    of two deletes arrive does not matter. *)
Theorem Removes_commute_and_are_idempotent : forall state id1 id2,
  AppReducer (AppReducer state (DELETE_TRANSACTION id1)) (DELETE_TRANSACTION id2)
  = AppReducer (AppReducer state (DELETE_TRANSACTION id2)) (DELETE_TRANSACTION id1)
  /\ AppReducer (AppReducer state (DELETE_TRANSACTION id1)) (DELETE_TRANSACTION id1)
     = AppReducer state (DELETE_TRANSACTION id1).
Proof.
  intros state id1 id2. cbn. split; f_equal.
  - apply filter_swap.
  - apply filter_absent_id, removed_id_absent.
Qed.

(** X7. [Add(tx)] and [Remove(id)] give the same state in either order when
    [id] is not the id of [tx]; when it is, the order decides whether [tx]
    is in the list at the end. *)
Theorem Add_and_Remove_commute_unless_same_id : forall state tx id,
  (_id tx <> id ->
   AppReducer (AppReducer state (ADD_TRANSACTION tx)) (DELETE_TRANSACTION id)
   = AppReducer (AppReducer state (DELETE_TRANSACTION id)) (ADD_TRANSACTION tx))
  /\ (_id tx = id ->
      ~ In tx (transactions
                 (AppReducer (AppReducer state (ADD_TRANSACTION tx)) (DELETE_TRANSACTION id)))
      /\ In tx (transactions
                  (AppReducer (AppReducer state (DELETE_TRANSACTION id)) (ADD_TRANSACTION tx)))).
Proof.
  intros state tx id. split.
  - intros Hneq. cbn. f_equal. rewrite filter_app. cbn.
    destruct (String.eqb_spec (_id tx) id); [contradiction | reflexivity].
  - intros Heq. cbn. split.
    + intros Hin. apply filter_In in Hin. destruct Hin as [_ Hneq].
      rewrite Heq, String.eqb_refl in Hneq. discriminate.
    + apply in_or_app. right. left. reflexivity.
Qed.

(** X8. Along any run of the store, [loading] is true exactly when it was
    true at the start and no [SetAll] was dispatched: only a successful fetch
    ends loading, a failed one leaves it on, and nothing turns it on again. *)
Theorem loading_until_first_SetAll : forall actions state,
  loading (dispatch_all state actions) =
  loading state && negb (existsb (@is_GET_TRANSACTIONS num) actions).
Proof.
  unfold dispatch_all.
  induction actions as [|action actions IH]; intros state; cbn [fold_left existsb].
  - rewrite andb_true_r. reflexivity.
  - rewrite IH. destruct action; cbn; try reflexivity.
    rewrite andb_false_r. reflexivity.
Qed.

(** X9. Along any run of the store, the error slot holds the message of the
    last [SetError] of the run, whatever was dispatched after it, as long as
    no other [SetError] was. *)
Theorem error_is_the_last_SetError : forall state before message after,
  Forall (fun action => action_type action <> "TRANSACTION_ERROR") after ->
  error (dispatch_all state (before ++ TRANSACTION_ERROR message :: after)) = message.
Proof.
  intros state before message after Hafter. unfold dispatch_all.
  rewrite fold_left_app. cbn [fold_left].
  set (s := AppReducer (fold_left _ before state) (TRANSACTION_ERROR message)).
  assert (Hs : error s = message) by reflexivity.
  clearbody s. revert s Hs.
  induction Hafter as [|action after Hty _ IH]; intros s Hs; cbn [fold_left].
  - exact Hs.
  - apply IH. rewrite <- Hs. destruct action; cbn in *; congruence.
Qed.

(** X10. The editing slot is written by [Replace] and [SetEditing] only:
    every other action, recognized or not, leaves it as it was. *)
Theorem editing_written_by_Replace_and_SetEditing_only : forall state action,
  action_type action <> "UPDATE_TRANSACTION" ->
  action_type action <> "SET_EDITING" ->
  editing (AppReducer state action) = editing state.
Proof.
  intros state action Hupd Hset. destruct action; cbn in *; congruence.
Qed.

(** X11. A failed sync operation changes nothing of what the provider hands
    to the components: its value carries the transactions and the editing
    slot, not the error, so no component can tell that the operation
    failed. *)
Theorem failed_sync_is_invisible_to_components : forall state action err,
  failed_sync action err ->
  GlobalProvider_value (AppReducer state action) = GlobalProvider_value state.
Proof.
  intros state action err Hfail. destruct Hfail; reflexivity.
Qed.

End StoreAlgebra.

(* ================================================================== *)
(** * Further properties of the chart and of the totals *)

Section ChartShape.

Context {num : Type} {A : Arith num}.

Implicit Types (l : list (Transaction num)) (curr tx : Transaction num).

(** A step never shortens the breakdown and never leaves it empty. *)
Lemma step_length : forall (acc : list (@Slice num)) curr,
  (List.length acc <= List.length (SpendingChart_step acc curr))%nat
  /\ (1 <= List.length (SpendingChart_step acc curr))%nat.
Proof.
  intros acc curr. unfold SpendingChart_step.
  destruct (find _ acc) as [s|] eqn:Hfind.
  - assert (Hlen : List.length (add_to_existing (category_or_Other curr)
                                  (Math_abs (amount curr)) acc) = List.length acc).
    { rewrite <- (length_map name), names_add_to_existing. apply length_map. }
    rewrite Hlen. split; [lia|].
    destruct acc; [discriminate | cbn; lia].
  - rewrite length_app. cbn. lia.
Qed.

Lemma fold_step_length : forall l (acc : list (@Slice num)),
  (List.length acc <= List.length (fold_left SpendingChart_step l acc))%nat.
Proof.
  induction l as [|t l IH]; intros acc; cbn [fold_left]; [lia|].
  specialize (IH (SpendingChart_step acc t)).
  pose proof (step_length acc t). lia.
Qed.

(** X12. The chart has no data, and [SpendingChart] renders nothing, exactly
    when no transaction of the list has an amount below zero. *)
Theorem chart_is_empty_iff_no_expense : forall l,
  SpendingChart_data l = [] <->
  (forall t, In t l -> lt (amount t) zero = false).
Proof.
  intros l. unfold SpendingChart_data. split.
  - intros Hempty t Hin. destruct (lt (amount t) zero) eqn:Hneg; [|reflexivity].
    exfalso.
    assert (Hmem : In t (filter (fun t => lt (amount t) zero) l))
      by (apply filter_In; split; assumption).
    destruct (filter (fun t => lt (amount t) zero) l) as [|t0 rest]; [contradiction|].
    cbn [fold_left] in Hempty.
    pose proof (fold_step_length rest (SpendingChart_step [] t0)) as Hlen.
    pose proof (step_length [] t0) as [_ Hone].
    rewrite Hempty in Hlen. cbn in Hlen. lia.
  - intros Hnone.
    assert (Hfilter : filter (fun t => lt (amount t) zero) l = []).
    { induction l as [|t l IH]; cbn; [reflexivity|].
      rewrite (Hnone t (or_introl eq_refl)). apply IH.
      intros u Hu. apply Hnone. right. exact Hu. }
    rewrite Hfilter. reflexivity.
Qed.

(** The name of every entry comes from the accumulator or from a
    transaction of the list. *)
Lemma names_of_fold : forall l (acc : list (@Slice num)) n,
  In n (map name (fold_left SpendingChart_step l acc)) ->
  In n (map name acc) \/ exists t, In t l /\ category_or_Other t = n.
Proof.
  induction l as [|t l IH]; intros acc n Hin; cbn [fold_left] in Hin; [left; exact Hin|].
  destruct (IH _ _ Hin) as [Hstep|[u [Hu Hcat]]].
  - unfold SpendingChart_step in Hstep. destruct (find _ acc).
    + rewrite names_add_to_existing in Hstep. left. exact Hstep.
    + rewrite map_app in Hstep. apply in_app_or in Hstep.
      destruct Hstep as [Hacc|[Hnew|[]]]; [left; exact Hacc|].
      right. exists t. split; [left; reflexivity | exact Hnew].
  - right. exists u. split; [right; exact Hu | exact Hcat].
Qed.

(** X13. When every expense of the list has one of the seven listed
    categories (or none), every slice of the chart is named by a listed id
    and the chart has at most seven slices. *)
Theorem chart_has_at_most_seven_listed_slices : forall l,
  (forall t, In t l -> lt (amount t) zero = true ->
             In (category_or_Other t) (map id CATEGORIES)) ->
  (forall s, In s (SpendingChart_data l) -> In (name s) (map id CATEGORIES))
  /\ (List.length (SpendingChart_data l) <= 7)%nat.
Proof.
  intros l Hlisted.
  assert (Hnames : incl (map name (SpendingChart_data l)) (map id CATEGORIES)).
  { intros n Hn. unfold SpendingChart_data in Hn.
    apply names_of_fold in Hn. destruct Hn as [[]|[t [Ht Hcat]]].
    apply filter_In in Ht. destruct Ht as [Ht Hneg].
    rewrite <- Hcat. apply Hlisted; assumption. }
  split.
  - intros s Hs. apply Hnames. apply in_map. exact Hs.
  - rewrite <- (length_map name).
    change 7%nat with (List.length (map id CATEGORIES)).
    apply NoDup_incl_length; [|exact Hnames].
    unfold SpendingChart_data. apply NoDup_names_fold. constructor.
Qed.

(** X14. After a successful create, each total is the total before plus the
    new amount where the amount counts: the balance always, the income for
    an amount above zero, the expense for one below.  This holds on binary64
    as on exact numbers, since the new record is added last. *)
Theorem totals_after_Add : forall (state : State num) tx,
  let l := transactions state in
  let l' := transactions (AppReducer state (ADD_TRANSACTION tx)) in
  Balance_total l' = add (Balance_total l) (amount tx)
  /\ IncomeExpenses_income l' =
       (if lt zero (amount tx)
        then add (IncomeExpenses_income l) (amount tx)
        else IncomeExpenses_income l)
  /\ IncomeExpenses_expense l' =
       (if lt (amount tx) zero
        then mul (add (sum_amounts (filter (fun item => lt (amount item) zero) l))
                      (amount tx)) neg_one
        else IncomeExpenses_expense l).
Proof.
  intros state tx. cbn.
  unfold Balance_total, IncomeExpenses_income, IncomeExpenses_expense, sum_amounts.
  rewrite !filter_app, fold_left_app. cbn [filter fold_left].
  repeat split.
  - destruct (lt zero (amount tx)).
    + rewrite fold_left_app. reflexivity.
    + rewrite app_nil_r. reflexivity.
  - destruct (lt (amount tx) zero).
    + rewrite fold_left_app. reflexivity.
    + rewrite app_nil_r. reflexivity.
Qed.

Lemma find_name_existsb : forall cat (acc : list (@Slice num)),
  existsb (String.eqb cat) (map name acc) =
  match find (fun item => name item =? cat) acc with Some _ => true | None => false end.
Proof.
  intros cat acc. induction acc as [|s acc IH]; cbn; [reflexivity|].
  rewrite (String.eqb_sym cat (name s)).
  destruct (name s =? cat); [reflexivity | exact IH].
Qed.

(** X15. After a successful create, the slices of the chart keep their names
    and their order; the new record adds one slice, at the end, exactly when
    it is an expense of a group that the chart did not have. *)
Theorem chart_names_after_Add : forall (state : State num) tx,
  let names := map name (SpendingChart_data (transactions state)) in
  map name (SpendingChart_data (transactions (AppReducer state (ADD_TRANSACTION tx)))) =
  (names ++
   (if lt (amount tx) zero && negb (existsb (String.eqb (category_or_Other tx)) names)
    then [category_or_Other tx] else []))%list.
Proof.
  intros state tx. cbn. unfold SpendingChart_data.
  rewrite filter_app. cbn [filter].
  destruct (lt (amount tx) zero); cbn [andb].
  - rewrite fold_left_app. cbn [fold_left].
    rewrite find_name_existsb. unfold SpendingChart_step.
    destruct (find _ _).
    + rewrite names_add_to_existing, app_nil_r. reflexivity.
    + rewrite map_app. reflexivity.
  - rewrite !app_nil_r. reflexivity.
Qed.

End ChartShape.

(** X16. The fill of a cell is always one of the six colours of the palette;
    the first six cells have six different fills, and the cell at
    [index + 6] has the fill of the cell at [index], so the seventh slice of
    a chart has the colour of the first. *)
Theorem Cell_fill_cycles_through_six_colours : forall index : nat,
  In (Cell_fill index) COLORS
  /\ Cell_fill (index + 6) = Cell_fill index
  /\ (forall other : nat,
        (index < 6)%nat -> (other < 6)%nat ->
        Cell_fill index = Cell_fill other -> index = other).
Proof.
  intros index. unfold Cell_fill. change (List.length COLORS) with 6%nat.
  repeat split.
  - apply nth_In. change (List.length COLORS) with 6%nat.
    apply Nat.mod_upper_bound. discriminate.
  - replace (index + 6)%nat with (index + 1 * 6)%nat by lia.
    rewrite Nat.Div0.mod_add. reflexivity.
  - intros other Hi Ho.
    rewrite (Nat.mod_small index 6 Hi), (Nat.mod_small other 6 Ho).
    do 6 (destruct index as [|index]; [do 6 (destruct other as [|other];
      [first [reflexivity | discriminate]|]); lia|]); lia.
Qed.

(* ================================================================== *)
(** * Properties of the transaction list *)

(** Every string includes the empty string. *)
Lemma includes_empty : forall s : string, includes s "" = true.
Proof. intros [|c s]; reflexivity. Qed.

Section ListProperties.

Context {num : Type} {A : Arith num}.

Variable toLowerCase : string -> string.

(** Lower-casing the empty string gives the empty string. *)
Hypothesis toLowerCase_empty : toLowerCase "" = "".

Implicit Types (l : list (Transaction num)) (t : Transaction num).

Lemma matches_empty_search : forall tab t,
  matches toLowerCase tab "" t =
  if tab =? "all" then true
  else if tab =? "income" then lt zero (amount t)
  else lt (amount t) zero.
Proof.
  intros tab t. unfold matches. rewrite toLowerCase_empty, includes_empty.
  reflexivity.
Qed.

(** X17. With the search box empty, the tab 'all' lists every transaction,
    in the order of the store. *)
Theorem all_tab_with_empty_search_lists_everything : forall l,
  filteredTransactions toLowerCase "all" "" l = l.
Proof.
  intros l. unfold filteredTransactions.
  induction l as [|t l IH]; cbn [filter]; [reflexivity|].
  rewrite matches_empty_search. cbn. rewrite IH. reflexivity.
Qed.

(** X18. With the search box empty, the totals and the chart are computed
    from the rows of the tabs: the income total is the sum of the rows of
    the tab 'income', the expense total is the sum of the rows of the tab
    'expense' times [-1], and the chart is the reduction of the rows of the
    tab 'expense'. *)
Theorem totals_are_sums_of_the_tabs : forall l,
  IncomeExpenses_income l = sum_amounts (filteredTransactions toLowerCase "income" "" l)
  /\ IncomeExpenses_expense l =
       mul (sum_amounts (filteredTransactions toLowerCase "expense" "" l)) neg_one
  /\ SpendingChart_data l =
       fold_left SpendingChart_step (filteredTransactions toLowerCase "expense" "" l) [].
Proof.
  intros l.
  assert (Hincome : filteredTransactions toLowerCase "income" "" l
                    = filter (fun item => lt zero (amount item)) l).
  { unfold filteredTransactions. apply filter_ext. intros t.
    rewrite matches_empty_search. reflexivity. }
  assert (Hexpense : filteredTransactions toLowerCase "expense" "" l
                     = filter (fun item => lt (amount item) zero) l).
  { unfold filteredTransactions. apply filter_ext. intros t.
    rewrite matches_empty_search. reflexivity. }
  rewrite Hincome, Hexpense. repeat split.
Qed.

(** X19. A transaction whose amount is neither below nor above zero (zero
    itself, or NaN on binary64) is shown with the sign '+' and, whatever the
    search, is listed under neither the tab 'income' nor the tab 'expense';
    and every row of the tab 'expense' is shown with the sign '-'. *)
Theorem rows_signs_and_tabs : forall search l t,
  (lt zero (amount t) = false -> lt (amount t) zero = false ->
   row_sign t = "+"
   /\ ~ In t (filteredTransactions toLowerCase "income" search l)
   /\ ~ In t (filteredTransactions toLowerCase "expense" search l))
  /\ (In t (filteredTransactions toLowerCase "expense" search l) -> row_sign t = "-").
Proof.
  intros search l t. unfold filteredTransactions, row_sign. split.
  - intros Hpos Hneg. rewrite Hneg. repeat split.
    + intros Hin. apply filter_In in Hin. destruct Hin as [_ Hm].
      unfold matches in Hm. cbn in Hm. rewrite Hpos, andb_false_r in Hm. discriminate.
    + intros Hin. apply filter_In in Hin. destruct Hin as [_ Hm].
      unfold matches in Hm. cbn in Hm. rewrite Hneg, andb_false_r in Hm. discriminate.
  - intros Hin. apply filter_In in Hin. destruct Hin as [_ Hm].
    unfold matches in Hm. cbn in Hm. apply andb_true_iff in Hm.
    destruct Hm as [_ Hneg]. rewrite Hneg. reflexivity.
Qed.

End ListProperties.

(* ================================================================== *)
(** * Properties of the category lookup *)

(** X20. [getCatDetails] always returns one of the entries of [CATEGORIES];
    the entry has the id it was asked for exactly when that id is one of the
    seven, and it is the entry "Other" in every other case, a missing
    category included. *)
Theorem getCatDetails_total_lookup : forall category : option string,
  In (getCatDetails category) CATEGORIES
  /\ (forall c, category = Some c ->
        (id (getCatDetails category) = c <-> In c (map id CATEGORIES)))
  /\ ((forall c, category = Some c -> ~ In c (map id CATEGORIES)) ->
      getCatDetails category = {| id := "Other"; label := "Other Expenses" |}).
Proof.
  intros category. unfold getCatDetails. repeat split.
  - destruct category as [c|]; [|cbn; tauto].
    destruct (find _ CATEGORIES) as [cat|] eqn:Hfind; [|cbn; tauto].
    apply find_some in Hfind. tauto.
  - intros Hid. destruct category as [c'|]; [|discriminate].
    injection H as ->.
    destruct (find _ CATEGORIES) as [cat|] eqn:Hfind.
    + apply find_some in Hfind. destruct Hfind as [Hin _].
      rewrite <- Hid. apply in_map. exact Hin.
    + cbn in Hid. subst c. cbn. tauto.
  - intros Hin. subst category.
    destruct (find _ CATEGORIES) as [cat|] eqn:Hfind.
    + apply find_some in Hfind. destruct Hfind as [_ Heq].
      apply String.eqb_eq. exact Heq.
    + exfalso. apply in_map_iff in Hin. destruct Hin as [cat [Hid Hcat]].
      pose proof (find_none _ _ Hfind cat Hcat) as Hno. cbn in Hno.
      rewrite Hid, String.eqb_refl in Hno. discriminate.
  - intros Hunlisted. destruct category as [c|]; [|reflexivity].
    destruct (find _ CATEGORIES) as [cat|] eqn:Hfind; [|reflexivity].
    exfalso. apply find_some in Hfind. destruct Hfind as [Hin Heq].
    apply String.eqb_eq in Heq. apply (Hunlisted c eq_refl).
    rewrite <- Heq. apply in_map. exact Hin.
Qed.

Section ListAndChart.

Context {num : Type} {A : Arith num}.

(** X21. The row of a transaction in the list and its slice in the chart
    carry the same category id exactly when the group of the transaction is
    one of the seven listed ids; a transaction with an unlisted category is
    listed as "Other" and charted under its own name. *)
Theorem list_and_chart_agree_iff_listed : forall t : Transaction num,
  id (getCatDetails (category t)) = category_or_Other t
  <-> In (category_or_Other t) (map id CATEGORIES).
Proof.
  intros t. unfold category_or_Other.
  destruct (category t) as [c|]; [|cbn; tauto].
  destruct (String.eqb_spec c "") as [->|Hne]; [cbn; tauto|].
  unfold getCatDetails.
  destruct (find (fun cat => id cat =? c) CATEGORIES) as [cat|] eqn:Hfind.
  - apply find_some in Hfind. destruct Hfind as [Hin Heq].
    apply String.eqb_eq in Heq. split; [|intros _; exact Heq].
    intros _. rewrite <- Heq. apply in_map. exact Hin.
  - split.
    + cbn. intros <-. cbn. tauto.
    + intros Hin. exfalso. apply in_map_iff in Hin. destruct Hin as [cat [Hid Hcat]].
      pose proof (find_none _ _ Hfind cat Hcat) as Hno. cbn in Hno.
      rewrite Hid, String.eqb_refl in Hno. discriminate.
Qed.

End ListAndChart.

(* ================================================================== *)
(** * Further properties of the form *)

Section FormFlow.

Variable num : Type.
Variable StringToNumber : string -> num.

Implicit Types (state : State num) (e : Transaction num) (draft : @Draft num).

(** X22. Submitting the form as the edit of [e] loaded it, untouched, calls
    [updateTransaction] with the id of [e] and the text and the amount of
    [e] as they are (the amount is a number already, whatever the host's
    conversion of strings does); the category sent is that of [e], or
    "Other" when [e] has none. *)
Theorem untouched_edit_sends_the_record_back : forall e,
  fst (onSubmit StringToNumber (Some e) (load_draft (Some e))) =
  call_updateTransaction (_id e)
    {| data_text := text e;
       data_amount := amount e;
       data_category := category_or_Other e |}.
Proof. intros e. reflexivity. Qed.

(** X23. The form is reset to its empty defaults by the submit itself, before
    the call settles.  When the call is rejected, the list and the editing
    slot are as before the submit, so the store is still in edit mode while
    the form has been emptied; when an update resolves, the editing slot is
    cleared. *)
Theorem rejected_submit_loses_the_draft : forall state draft err,
  let call := fst (onSubmit StringToNumber (editing state) draft) in
  let form := snd (onSubmit StringToNumber (editing state) draft) in
  form = empty_draft
  /\ transactions (AppReducer state (settle call (Rejected err))) = transactions state
  /\ editing (AppReducer state (settle call (Rejected err))) = editing state
  /\ (forall e payload, editing state = Some e ->
        editing (AppReducer state (settle call (Resolved payload))) = None).
Proof.
  intros state draft err. cbn. repeat split.
  - destruct (editing state) eqn:He; cbn; reflexivity.
  - destruct (editing state) eqn:He; cbn; rewrite He; reflexivity.
  - intros e payload He. rewrite He. reflexivity.
Qed.

(** X24. Starting the edit of a transaction and cancelling it gives back the
    store as it was before, when no edit was open then, and the form that
    the editing slot loads is the empty one. *)
Theorem start_edit_then_cancel_restores : forall state e,
  editing state = None ->
  let cancelled := AppReducer (AppReducer state (setEditing (Some e)))
                              (fst (@cancelEdit num)) in
  cancelled = state
  /\ load_draft (editing cancelled) = snd (@cancelEdit num).
Proof.
  intros state e Hidle. cbn. split; [|reflexivity].
  rewrite <- Hidle. destruct state; reflexivity.
Qed.

End FormFlow.

(* ================================================================== *)
(** * The further properties on the sample data *)

(** X1, on the loaded store: removing an id it does not hold. *)
Lemma Remove_absent_id_witness :
  AppReducer loaded (DELETE_TRANSACTION "zz") = loaded.
Proof.
  apply (@Remove_absent_id_is_noop float loaded "zz").
  cbn. intuition discriminate.
Defined.

(** X3, on the loaded store: a created record removed again. *)
Lemma Add_then_Remove_witness :
  AppReducer (AppReducer loaded (ADD_TRANSACTION ghost)) (DELETE_TRANSACTION "zz") = loaded.
Proof.
  apply (@Add_then_Remove_restores float loaded ghost).
  cbn. intuition discriminate.
Defined.

(** X4, on the loaded store: [dinner] replaced by a corrected record. *)
Lemma Replace_then_lookup_witness :
  find (fun t => _id t =? "a2")
       (transactions (AppReducer loaded
          (UPDATE_TRANSACTION (sample "a2" (-12)%float (Some "Food")))))
  = Some (sample "a2" (-12)%float (Some "Food")).
Proof.
  apply (@Replace_then_lookup float loaded (sample "a2" (-12)%float (Some "Food"))).
  cbn. tauto.
Defined.

(** X7, on the loaded store: a create and the delete of another record. *)
Lemma Add_and_Remove_commute_witness :
  AppReducer (AppReducer loaded (ADD_TRANSACTION ghost)) (DELETE_TRANSACTION "a1")
  = AppReducer (AppReducer loaded (DELETE_TRANSACTION "a1")) (ADD_TRANSACTION ghost).
Proof.
  apply (@Add_and_Remove_commute_unless_same_id float loaded ghost "a1").
  cbn. discriminate.
Defined.

(** X9, on the session: the error of the failed fetch is still there after
    the edit and the create. *)
Lemma error_is_the_last_SetError_witness :
  error (dispatch_all initialState session) = Some "Server Error".
Proof.
  apply (@error_is_the_last_SetError float initialState [] (Some "Server Error")
           [setEditing (Some lunch); addTransaction coffee (Resolved ghost)]).
  repeat constructor; cbn; discriminate.
Defined.

(** X10, on the store with [lunch] under edit: a create keeps the edit. *)
Lemma editing_kept_witness :
  editing (AppReducer troubled (ADD_TRANSACTION ghost)) = Some lunch.
Proof.
  apply (@editing_written_by_Replace_and_SetEditing_only float troubled
           (ADD_TRANSACTION ghost)); cbn; discriminate.
Defined.

(** X11, on a delete that never reached the server. *)
Lemma failed_sync_invisible_witness :
  GlobalProvider_value
    (AppReducer loaded (deleteTransaction float "a1" (Rejected network_failure)))
  = GlobalProvider_value loaded.
Proof.
  apply (@failed_sync_is_invisible_to_components float loaded
           (deleteTransaction float "a1" (Rejected network_failure)) network_failure).
  apply failed_remove.
Defined.

(** X13, on a list whose expenses are in "Other" and in "Food". *)
Lemma chart_at_most_seven_witness :
  (List.length (SpendingChart_data [cash; lunch; salary; dinner]) <= 7)%nat.
Proof.
  apply (@chart_has_at_most_seven_listed_slices float float_Arith
           [cash; lunch; salary; dinner]).
  intros t [<-|[<-|[<-|[<-|[]]]]] _; cbn; tauto.
Defined.

(** X17, on the three sample records. *)
Lemma all_tab_witness :
  filteredTransactions ascii_toLowerCase "all" "" [lunch; dinner; salary]
  = [lunch; dinner; salary].
Proof.
  apply (@all_tab_with_empty_search_lists_everything float float_Arith
           ascii_toLowerCase eq_refl [lunch; dinner; salary]).
Defined.

(** X18, on the three sample records. *)
Lemma totals_are_sums_of_the_tabs_witness :
  IncomeExpenses_income [lunch; dinner; salary]
  = sum_amounts (filteredTransactions ascii_toLowerCase "income" "" [lunch; dinner; salary]).
Proof.
  apply (@totals_are_sums_of_the_tabs float float_Arith
           ascii_toLowerCase eq_refl [lunch; dinner; salary]).
Defined.

(** X19, on a record with amount zero. *)
Lemma zero_amount_row_witness :
  row_sign nothing = "+"
  /\ ~ In nothing (filteredTransactions ascii_toLowerCase "income" "" [lunch; nothing; salary])
  /\ ~ In nothing (filteredTransactions ascii_toLowerCase "expense" "" [lunch; nothing; salary]).
Proof.
  apply (@rows_signs_and_tabs float float_Arith ascii_toLowerCase ""
           [lunch; nothing; salary] nothing); reflexivity.
Defined.

(** X24, on the loaded store: the edit of [lunch] started and cancelled. *)
Lemma start_edit_then_cancel_witness :
  AppReducer (AppReducer loaded (setEditing (Some lunch))) (fst (@cancelEdit float)) = loaded.
Proof.
  apply (@start_edit_then_cancel_restores float loaded lunch). reflexivity.
Defined.

(** The search box ignores the case of ASCII letters and looks for the text
    anywhere in the description. *)
Example search_finds_substrings :
  filteredTransactions ascii_toLowerCase "expense" "OCER" [lunch; dinner; salary]
  = [lunch; dinner]
  /\ filteredTransactions ascii_toLowerCase "all" "rent" [lunch; dinner; salary] = [].
Proof. split; reflexivity. Qed.

(* ================================================================== *)
(** * Properties of the dropdown, and of a delete on the balance *)

(** X25. In the category dropdown, when the value is one of the seven listed
    ids exactly one row is drawn as selected, and it is the entry that the
    trigger shows; for any other value the trigger shows "Other" and no row
    is drawn as selected. *)
Theorem dropdown_selection : forall value : string,
  (In value (map id CATEGORIES) -> selected_rows value = [selectedCategory value])
  /\ (~ In value (map id CATEGORIES) ->
      selected_rows value = [] /\ id (selectedCategory value) = "Other").
Proof.
  intros value. unfold selected_rows, selectedCategory, getCatDetails. split.
  - cbn. intros [<-|[<-|[<-|[<-|[<-|[<-|[<-|[]]]]]]]]; reflexivity.
  - intros Hunlisted.
    assert (Hnone : forall c, In c (map id CATEGORIES) ->
                      (value =? c) = false /\ (c =? value) = false).
    { intros c Hc. split; apply String.eqb_neq; intros Heq; subst; contradiction. }
    unfold CATEGORIES. cbn [filter find id].
    repeat match goal with
           | |- context [value =? ?c] => rewrite (proj1 (Hnone c ltac:(cbn; tauto)))
           end.
    repeat match goal with
           | |- context [?c =? value] => rewrite (proj2 (Hnone c ltac:(cbn; tauto)))
           end.
    split; reflexivity.
Qed.

(** X25, on the value "Rent" and on the value "Travel". *)
Lemma dropdown_selection_witness :
  selected_rows "Rent" = [ {| id := "Rent"; label := "Rent & Housing" |} ]
  /\ selected_rows "Travel" = [].
Proof.
  split.
  - apply (dropdown_selection "Rent"). cbn. tauto.
  - apply (dropdown_selection "Travel"). cbn. intuition discriminate.
Defined.

Section ExactDelete.

Context {num : Type} {A : Arith num} {E : ExactArith A}.


End ExactDelete.

